(** * Login form and dashboard page: a shallow embedding

    The two React components of the repository, [Login]
    (src/components/Login.tsx) and [DashboardPage] (the dashboard page), are
    embedded as state-passing programs over their [useState] cells.  Calls
    that leave the component (the identity provider, the timer, the router)
    are recorded in a log together with the component state that is current
    when they are issued. *)

From Stdlib Require Import NArith Ascii String.
From stdpp Require Import base option list gmap strings.

Open Scope list_scope.

(** ** JavaScript strings and values *)

Module Js.

(** A JavaScript string is a sequence of UTF-16 code units. *)
Abbreviation jsstring := (list N).

(** A string literal of the source, as code units. *)
Fixpoint lit (s : string) : jsstring :=
  match s with
  | EmptyString => []
  | String a s' => N_of_ascii a :: lit s'
  end.

(** The values that occur as properties of the [errors] object: a message
    or [undefined]. *)
Inductive value :=
  | Undefined
  | Str (s : jsstring).

(** An object with string-valued keys. *)
Abbreviation obj V := (gmap string V).

(** ToBoolean: [undefined] and the empty string are falsy. *)
Definition truthy (v : value) : bool :=
  match v with
  | Undefined => false
  | Str [] => false
  | Str (_ :: _) => true
  end.

(** Reading a property: a missing key reads as [undefined]. *)
Definition prop (o : obj value) (k : string) : value :=
  default Undefined (o !! k).

Definition strprop (o : obj jsstring) (k : string) : value :=
  from_option Str Undefined (o !! k).

(** The members every ordinary object inherits from [Object.prototype]:
    functions, and the accessor [__proto__], which reads as the prototype
    itself.  All of them are truthy. *)
Definition object_prototype : list string :=
  ["constructor"; "__defineGetter__"; "__defineSetter__"; "hasOwnProperty";
   "__lookupGetter__"; "__lookupSetter__"; "isPrototypeOf";
   "propertyIsEnumerable"; "toString"; "valueOf"; "__proto__";
   "toLocaleString"].

(** ToBoolean of [o[k]] for a key [k] computed at run time: an own key is
    read first, also when it holds [undefined]; a key the object does not
    own is looked up in the prototype. *)
Definition truthy_at (o : obj value) (k : string) : bool :=
  match o !! k with
  | Some v => truthy v
  | None => bool_decide (k ∈ object_prototype)
  end.

(** [x && <element>{x}</element>] in JSX: the element, with [x] as its
    text, is rendered exactly when [x] is truthy. *)
Definition shown (v : value) : option jsstring :=
  match v with
  | Str (c :: s) => Some (c :: s)
  | _ => None
  end.

(** What a rejected promise carries: [error instanceof Error] holds for an
    [Error] object, whose [message] is a string; anything else may be
    thrown as well. *)
Inductive thrown :=
  | ErrorObject (message : jsstring)
  | NotAnError.


End Js.

(** ** The regular expression of the email check *)

Module Regex.
Import Js.
Local Open Scope N_scope.

(** The character class [\s] of ECMAScript: WhiteSpace and LineTerminator
    code points. *)
Definition is_space (c : N) : bool :=
  (9 <=? c) && (c <=? 13)
  || (c =? 32) || (c =? 160) || (c =? 5760)
  || (8192 <=? c) && (c <=? 8202)
  || (c =? 8232) || (c =? 8233) || (c =? 8239) || (c =? 8287)
  || (c =? 12288) || (c =? 65279).

Definition at_sign : N := 64.
Definition dot : N := 46.

(** [[^\s@]] *)
Definition not_space_at (c : N) : bool := negb (is_space c || (c =? at_sign)).

Definition is_char (d : N) (c : N) : bool := c =? d.

(** The pattern language the source needs: one character of a class, or
    one or more ([+], greedy) characters of a class. *)
Inductive item :=
  | One (p : N -> bool)
  | Many1 (p : N -> bool).

(** Zero or more characters of [p], longest first, then the rest [k]. *)
Fixpoint star_then (p : N -> bool) (k : jsstring -> bool) (s : jsstring) : bool :=
  match s with
  | c :: s' => (p c && star_then p k s') || k s
  | [] => k s
  end.

(** A pattern between [^] and [$] (no flags): the whole string matches. *)
Fixpoint matches (pat : list item) : jsstring -> bool :=
  match pat with
  | [] => fun s => match s with [] => true | _ => false end
  | One p :: pat' => fun s =>
      match s with
      | c :: s' => p c && matches pat' s'
      | [] => false
      end
  | Many1 p :: pat' => fun s =>
      match s with
      | c :: s' => p c && star_then p (matches pat') s'
      | [] => false
      end
  end.

(** [/^[^\s@]+@[^\s@]+\.[^\s@]+$/] *)
Definition email_re : list item :=
  [Many1 not_space_at; One (is_char at_sign); Many1 not_space_at;
   One (is_char dot); Many1 not_space_at].

Definition test (pat : list item) (s : jsstring) : bool := matches pat s.

(** The language of a pattern, said without reference to the matcher: the
    string splits into one piece per item. *)
Inductive denotes : list item -> jsstring -> Prop :=
  | denotes_nil : denotes [] []
  | denotes_one p pat c s :
      p c = true -> denotes pat s -> denotes (One p :: pat) (c :: s)
  | denotes_many1 p pat w s :
      w <> [] -> forallb p w = true -> denotes pat s ->
      denotes (Many1 p :: pat) (w ++ s).

End Regex.

(** ** Handlers as programs: state, log of outside calls, exceptions *)

Module Effects.
Import Js.

(** What a handler asks of the outside world. *)
Inductive call :=
  | PreventDefault
  | SignInWithEmailAndPassword (email password : value)
  | CreateUserWithEmailAndPassword (email password : value)
  | SignInWithPopup
  | SignOut
  | SetTimeout (ms : N)
  | RouterPush (path : string)
  | RouterReplace (path : string).

(** The calls that go to the identity provider. *)
Definition is_provider_call (c : call) : bool :=
  match c with
  | SignInWithEmailAndPassword _ _
  | CreateUserWithEmailAndPassword _ _
  | SignInWithPopup
  | SignOut => true
  | _ => false
  end.

Definition is_navigation (c : call) : bool :=
  match c with
  | RouterPush _ | RouterReplace _ => true
  | _ => false
  end.

(** How the promise of a provider call settles. *)
Inductive outcome :=
  | Fulfilled
  | Rejected (e : thrown).

(** The provider, seen from the component: it settles each call. *)
Abbreviation provider := (call -> outcome).

(** A statement completes normally or throws. *)
Inductive result (A : Type) :=
  | Normal (a : A)
  | Throw (e : thrown).
Arguments Normal {A} a.
Arguments Throw {A} e.

Section Monad.
Context {S : Type}.

(** A log entry: the call, and the component state at that moment (the
    state React shows while the call is pending). *)
Definition entry : Type := call * S.

Definition M (A : Type) : Type :=
  provider -> S -> list entry -> result A * S * list entry.

Definition ret {A} (a : A) : M A := fun _ s l => (Normal a, s, l).

Definition bind {A B} (m : M A) (k : A -> M B) : M B :=
  fun p s l =>
    match m p s l with
    | (Normal a, s', l') => k a p s' l'
    | (Throw e, s', l') => (Throw e, s', l')
    end.

(** A [useState] setter with an updater function. *)
Definition modify (f : S -> S) : M unit := fun _ s l => (Normal tt, f s, l).

(** A call that cannot fail. *)
Definition emit (c : call) : M unit := fun _ s l => (Normal tt, s, l ++ [(c, s)]).

(** [await] of a provider call: a rejected promise is thrown. *)
Definition await (c : call) : M unit :=
  fun p s l =>
    match p c with
    | Fulfilled => (Normal tt, s, l ++ [(c, s)])
    | Rejected e => (Throw e, s, l ++ [(c, s)])
    end.

(** [try { m } catch (error) { h error }] *)
Definition try_catch {A} (m : M A) (h : thrown -> M A) : M A :=
  fun p s l =>
    match m p s l with
    | (Throw e, s', l') => h e p s' l'
    | r => r
    end.

(** [try { m } finally { f }]: [f] runs on both exits; the completion of
    [m] is kept unless [f] throws. *)
Definition try_finally {A} (m : M A) (f : M unit) : M A :=
  fun p s l =>
    match m p s l with
    | (r, s', l') =>
        match f p s' l' with
        | (Normal _, s'', l'') => (r, s'', l'')
        | (Throw e, s'', l'') => (Throw e, s'', l'')
        end
    end.

(** One run of a handler, from state [s] with an empty log. *)
Record run (A : Type) := Run {
  returned : result A;
  final : S;
  trace : list entry
}.
Arguments Run {A}.

Definition exec {A} (m : M A) (p : provider) (s : S) : run A :=
  match m p s [] with
  | (r, s', l) => Run r s' l
  end.

End Monad.

Arguments M S A : clear implicits.
Arguments run S A : clear implicits.
Arguments entry S : clear implicits.
Arguments Run {S A} returned final trace.
Arguments returned {S A} r.
Arguments final {S A} r.
Arguments trace {S A} r.

(** stdpp's monad notations: [x ← m; k] and [m ;; k]. *)
#[global] Instance M_ret {S} : MRet (M S) := fun A a => ret a.
#[global] Instance M_bind {S} : MBind (M S) := fun A B k m => bind m k.

(** Two providers for examples: one that fulfils every call, one that
    rejects every call with [e]. *)
Definition fulfilling : provider := fun _ => Fulfilled.
Definition rejecting (e : thrown) : provider := fun _ => Rejected e.

(** The calls of a log, without the states. *)
Definition calls {S} (l : list (entry S)) : list call := l.*1.

End Effects.

(** ** The login form (src/components/Login.tsx) *)

Module Login.
Import Js Regex Effects.

Inductive AuthMode := signIn | signUp.

(** The [useState] cells of the component. *)
Record LoginState := {
  formData : obj jsstring;
  errors : obj value;
  isLoading : bool;
  isGoogleLoading : bool;
  isRedirecting : bool;
  successMessage : jsstring;
  authError : jsstring;
  authMode : AuthMode
}.

(** The state of the first render. *)
Definition initial : LoginState := {|
  formData := {[ "email" := []; "password" := [] ]};
  errors := ∅;
  isLoading := false;
  isGoogleLoading := false;
  isRedirecting := false;
  successMessage := [];
  authError := [];
  authMode := signIn
|}.

Definition with_formData (f : obj jsstring -> obj jsstring) (s : LoginState) :=
  {| formData := f (formData s); errors := errors s; isLoading := isLoading s;
     isGoogleLoading := isGoogleLoading s; isRedirecting := isRedirecting s;
     successMessage := successMessage s; authError := authError s;
     authMode := authMode s |}.

Definition with_errors (f : obj value -> obj value) (s : LoginState) :=
  {| formData := formData s; errors := f (errors s); isLoading := isLoading s;
     isGoogleLoading := isGoogleLoading s; isRedirecting := isRedirecting s;
     successMessage := successMessage s; authError := authError s;
     authMode := authMode s |}.

Definition with_isLoading (b : bool) (s : LoginState) :=
  {| formData := formData s; errors := errors s; isLoading := b;
     isGoogleLoading := isGoogleLoading s; isRedirecting := isRedirecting s;
     successMessage := successMessage s; authError := authError s;
     authMode := authMode s |}.

Definition with_isGoogleLoading (b : bool) (s : LoginState) :=
  {| formData := formData s; errors := errors s; isLoading := isLoading s;
     isGoogleLoading := b; isRedirecting := isRedirecting s;
     successMessage := successMessage s; authError := authError s;
     authMode := authMode s |}.

Definition with_isRedirecting (b : bool) (s : LoginState) :=
  {| formData := formData s; errors := errors s; isLoading := isLoading s;
     isGoogleLoading := isGoogleLoading s; isRedirecting := b;
     successMessage := successMessage s; authError := authError s;
     authMode := authMode s |}.

Definition with_successMessage (m : jsstring) (s : LoginState) :=
  {| formData := formData s; errors := errors s; isLoading := isLoading s;
     isGoogleLoading := isGoogleLoading s; isRedirecting := isRedirecting s;
     successMessage := m; authError := authError s;
     authMode := authMode s |}.

Definition with_authError (m : jsstring) (s : LoginState) :=
  {| formData := formData s; errors := errors s; isLoading := isLoading s;
     isGoogleLoading := isGoogleLoading s; isRedirecting := isRedirecting s;
     successMessage := successMessage s; authError := m;
     authMode := authMode s |}.

Definition with_authMode (m : AuthMode) (s : LoginState) :=
  {| formData := formData s; errors := errors s; isLoading := isLoading s;
     isGoogleLoading := isGoogleLoading s; isRedirecting := isRedirecting s;
     successMessage := successMessage s; authError := authError s;
     authMode := m |}.

(** The setters returned by [useState]. *)
Definition setFormData (v : obj jsstring) : M LoginState unit :=
  modify (with_formData (fun _ => v)).
Definition setFormData_fn (f : obj jsstring -> obj jsstring) : M LoginState unit :=
  modify (with_formData f).
Definition setErrors (v : obj value) : M LoginState unit :=
  modify (with_errors (fun _ => v)).
Definition setErrors_fn (f : obj value -> obj value) : M LoginState unit :=
  modify (with_errors f).
Definition setIsLoading (b : bool) : M LoginState unit := modify (with_isLoading b).
Definition setIsGoogleLoading (b : bool) : M LoginState unit :=
  modify (with_isGoogleLoading b).
Definition setIsRedirecting (b : bool) : M LoginState unit :=
  modify (with_isRedirecting b).
Definition setSuccessMessage (m : jsstring) : M LoginState unit :=
  modify (with_successMessage m).
Definition setAuthError (m : jsstring) : M LoginState unit :=
  modify (with_authError m).
Definition setAuthMode (m : AuthMode) : M LoginState unit :=
  modify (with_authMode m).

(** The messages of the source. *)
Definition email_required := lit "Email is required".
Definition email_invalid := lit "Please enter a valid email".
Definition password_required := lit "Password is required".
Definition password_short := lit "Password must be at least 6 characters".
Definition account_created := lit "Account created!".
Definition login_successful := lit "Login successful!".
Definition login_failed := lit "Login failed. Please try again.".
Definition google_login_failed := lit "Google login failed. Please try again.".

(** The handlers are closures of one render: they read [formData],
    [errors] and [authMode] of that render, the state [c] below, while the
    setters act on the state that is current when they run. *)
Section Handlers.
Variable c : LoginState.

(** The email branch of [validateForm] (lines 38-42): [!formData.email]
    holds for a missing or empty email; otherwise the email is a
    non-empty string and goes to the regular expression. *)
Definition validate_email (newErrors : obj value) : obj value :=
  match strprop (formData c) "email" with
  | Undefined | Str [] => <["email" := Str email_required]> newErrors
  | Str email =>
      if negb (test email_re email)
      then <["email" := Str email_invalid]> newErrors
      else newErrors
  end.

(** The password branch (lines 45-49). *)
Definition validate_password (newErrors : obj value) : obj value :=
  match strprop (formData c) "password" with
  | Undefined | Str [] => <["password" := Str password_required]> newErrors
  | Str password =>
      if (length password <? 6)%nat
      then <["password" := Str password_short]> newErrors
      else newErrors
  end.

Definition validateForm : M LoginState bool :=
  let newErrors : obj value := ∅ in
  let newErrors := validate_email newErrors in
  let newErrors := validate_password newErrors in
  setErrors newErrors ;;
  mret (bool_decide (size newErrors = 0%nat)).

(** [handleChange] (lines 55-68).  The test of line 62 reads
    [errors[name]] with a name computed at run time, so that a name the
    object does not own is looked up in [Object.prototype]. *)
Definition handleChange (name : string) (value : jsstring) : M LoginState unit :=
  setFormData_fn (fun prev => <[name := value]> prev) ;;
  if truthy_at (errors c) name
  then setErrors_fn (fun prev => <[name := Undefined]> prev)
  else mret tt.

Definition handleSubmit : M LoginState unit :=
  emit PreventDefault ;;
  setSuccessMessage [] ;;
  setAuthError [] ;;
  setIsRedirecting false ;;
  valid ← validateForm ;
  if negb valid then mret tt
  else
    setIsLoading true ;;
    try_finally
      (try_catch
         ((match authMode c with
           | signUp =>
               await (CreateUserWithEmailAndPassword
                        (strprop (formData c) "email")
                        (strprop (formData c) "password")) ;;
               setSuccessMessage account_created
           | signIn =>
               await (SignInWithEmailAndPassword
                        (strprop (formData c) "email")
                        (strprop (formData c) "password")) ;;
               setSuccessMessage login_successful
           end) ;;
          setFormData {[ "email" := []; "password" := [] ]} ;;
          setIsRedirecting true ;;
          emit (SetTimeout 1000) ;;
          emit (RouterPush "/dashboard"))
         (fun error =>
            let message :=
              match error with
              | ErrorObject m => m
              | NotAnError => login_failed
              end in
            setAuthError message))
      (setIsLoading false).

Definition handleGoogleSignIn : M LoginState unit :=
  setSuccessMessage [] ;;
  setAuthError [] ;;
  setIsRedirecting false ;;
  setIsGoogleLoading true ;;
  try_finally
    (try_catch
       (await SignInWithPopup ;;
        setSuccessMessage login_successful ;;
        setIsRedirecting true ;;
        emit (SetTimeout 1000) ;;
        emit (RouterPush "/dashboard"))
       (fun error =>
          let message :=
            match error with
            | ErrorObject m => m
            | NotAnError => google_login_failed
            end in
          setAuthError message))
    (setIsGoogleLoading false).

(** The [onClick] of the mode toggle (line 261). *)
Definition toggleAuthMode : M LoginState unit :=
  setAuthMode (match authMode c with signUp => signIn | signIn => signUp end).

End Handlers.

(** The text of the two fields (a missing key reads as [undefined], which
    [validateForm] treats like the empty string). *)
Definition email (s : LoginState) : jsstring := default [] (formData s !! "email").
Definition password (s : LoginState) : jsstring := default [] (formData s !! "password").

(** The provider call [handleSubmit] makes under the mode of its render. *)
Definition submit_call (c : LoginState) : call :=
  match authMode c with
  | signUp => CreateUserWithEmailAndPassword
                (strprop (formData c) "email") (strprop (formData c) "password")
  | signIn => SignInWithEmailAndPassword
                (strprop (formData c) "email") (strprop (formData c) "password")
  end.

Definition success_text (m : AuthMode) : jsstring :=
  match m with
  | signUp => account_created
  | signIn => login_successful
  end.

(** The text a [catch] block makes of the thrown value. *)
Definition message_of (fallback : jsstring) (error : thrown) : jsstring :=
  match error with
  | ErrorObject m => m
  | NotAnError => fallback
  end.

(** The form after [setFormData({ email: '', password: '' })]. *)
Definition cleared : obj jsstring := {[ "email" := []; "password" := [] ]}.

(** A filled-in form, as the tests type it. *)
Definition filled : LoginState :=
  with_formData
    (fun _ => {[ "email" := lit "test@example.com"; "password" := lit "password123" ]})
    initial.

(** The form of the test of the email format: [invalid-email]. *)
Definition mistyped : LoginState :=
  with_formData
    (fun _ => {[ "email" := lit "invalid-email"; "password" := lit "password123" ]})
    initial.

(** The form after a submit with both fields empty: both errors are set. *)
Definition after_empty_submit : LoginState :=
  with_errors
    (fun _ => {[ "email" := Str email_required; "password" := Str password_required ]})
    initial.

(** The state while the sign-in call of the filled-in form is pending. *)
Definition pending_sign_in : LoginState := with_isLoading true filled.

(** What a provider may throw: an error of the SDK, and an [Error] whose
    message is empty ([new Error()]). *)
Definition invalid_credential : thrown :=
  ErrorObject (lit "Firebase: Error (auth/invalid-credential).").
Definition empty_error : thrown := ErrorObject [].

(** What the component renders, by [data-testid]. *)
Record LoginView := {
  success_message : option jsstring;
  auth_error : option jsstring;
  redirect_buffer : bool;
  email_input : value;
  email_error : option jsstring;
  password_input : value;
  password_error : option jsstring;
  submit_disabled : bool;
  submit_label : jsstring;
  google_disabled : bool;
  google_label : jsstring
}.

Definition render (s : LoginState) : LoginView := {|
  success_message := shown (Str (successMessage s));
  auth_error := shown (Str (authError s));
  redirect_buffer := isRedirecting s;
  email_input := strprop (formData s) "email";
  email_error := shown (prop (errors s) "email");
  password_input := strprop (formData s) "password";
  password_error := shown (prop (errors s) "password");
  submit_disabled := isLoading s || isGoogleLoading s;
  submit_label :=
    if isLoading s
    then match authMode s with
         | signUp => lit "Creating account..."
         | signIn => lit "Signing in..."
         end
    else match authMode s with
         | signUp => lit "Create Account"
         | signIn => lit "Sign In"
         end;
  google_disabled := isLoading s || isGoogleLoading s;
  google_label :=
    if isGoogleLoading s
    then lit "Signing in with Google..."
    else lit "Continue with Google"
|}.

(** Two readings of the spec, as predicates, to be compared with the code.

    "The two paths do not block each other": while the flag of one path is
    set, the trigger of the other is not disabled. *)
Definition paths_do_not_block (s : LoginState) : Prop :=
  (isLoading s = true -> google_disabled (render s) = false) /\
  (isGoogleLoading s = true -> submit_disabled (render s) = false).

(** "The failure is rendered as the user-visible auth-error message": the
    [auth-error] element is on the page and holds the text of the failure. *)
Definition failure_is_rendered (fallback : jsstring) (e : thrown) (s : LoginState) : Prop :=
  auth_error (render s) = Some (message_of fallback e).

End Login.

(** ** The dashboard page *)

Module Dashboard.
Import Js Effects.

(** The user object the provider hands to the auth-state listener. *)
Record User := { uid : jsstring }.

Record DashboardState := {
  isSigningOut : bool;
  signOutMessage : jsstring
}.

Definition initial : DashboardState :=
  {| isSigningOut := false; signOutMessage := [] |}.

Definition setIsSigningOut (b : bool) : M DashboardState unit :=
  modify (fun s => {| isSigningOut := b; signOutMessage := signOutMessage s |}).
Definition setSignOutMessage (m : jsstring) : M DashboardState unit :=
  modify (fun s => {| isSigningOut := isSigningOut s; signOutMessage := m |}).

Definition signed_out := lit "Signed out successfully!".
Definition sign_out_failed := lit "Sign out failed. Please try again.".

(** The closures of one render, with state [c].  The effect lists
    [isSigningOut] among its dependencies, so the listener is subscribed
    again, with the new flag, whenever the flag changes. *)
Section Handlers.
Variable c : DashboardState.

(** The listener passed to [onAuthStateChanged]; [user] is [null] when
    nobody is signed in. *)
Definition authStateListener (user : option User) : M DashboardState unit :=
  if negb (bool_decide (is_Some user)) && negb (isSigningOut c)
  then emit (RouterReplace "/login")
  else mret tt.

Definition handleSignOut : M DashboardState unit :=
  setIsSigningOut true ;;
  setSignOutMessage signed_out ;;
  try_catch
    (await SignOut ;;
     emit (SetTimeout 1000) ;;
     emit (RouterReplace "/login"))
    (fun _ =>
       setIsSigningOut false ;;
       setSignOutMessage sign_out_failed).

End Handlers.

Record DashboardView := {
  signout_message : option jsstring;
  signout_buffer : bool;
  button_disabled : bool;
  button_label : jsstring
}.

Definition render (s : DashboardState) : DashboardView := {|
  signout_message := shown (Str (signOutMessage s));
  signout_buffer := isSigningOut s;
  button_disabled := isSigningOut s;
  button_label := if isSigningOut s then lit "Signing out..." else lit "Sign Out"
|}.

End Dashboard.


(** ** The form as the page wires it *)

Module Session.
Import Js Regex Effects Login.

(** The events the JSX binds to handlers: [onChange] of the two inputs
    (lines 180 and 207), a click on the submit button of the form (lines
    166 and 222), on the Google button (line 245) and on the mode toggle
    (line 261). *)
Inductive ui_event :=
  | Change (name : string) (value : jsstring)
  | ClickSubmit
  | ClickGoogle
  | ClickToggle.

(** The handler the render with state [s] runs for an event.  A button
    rendered with [disabled] does nothing when clicked. *)
Definition handler (s : LoginState) (ev : ui_event) : M LoginState unit :=
  match ev with
  | Change name value => handleChange s name value
  | ClickSubmit => if submit_disabled (render s) then mret tt else handleSubmit s
  | ClickGoogle => if google_disabled (render s) then mret tt else handleGoogleSignIn
  | ClickToggle => toggleAuthMode s
  end.

(** A series of events, each handled to its end, by the handler of the
    render that follows the event before it: the state at the end and the
    outside calls, in order. *)
Fixpoint session (p : provider) (s : LoginState) (evs : list ui_event)
  : LoginState * list call :=
  match evs with
  | [] => (s, [])
  | ev :: evs' =>
      let r := exec (handler s ev) p s in
      let '(s', cs) := session p (final r) evs' in
      (s', calls (trace r) ++ cs)
  end.

(** The same with the answers of the provider given event by event, so
    that the answer to a call may change from one event to the next (a
    sign-in that is rejected and fulfilled on the retry).  No handler calls
    the provider more than once, so within one event a provider that
    settles each call is all there is to choose. *)
Fixpoint replay (s : LoginState) (evs : list (ui_event * provider))
  : LoginState * list call :=
  match evs with
  | [] => (s, [])
  | (ev, p) :: evs' =>
      let r := exec (handler s ev) p s in
      let '(s', cs) := replay (final r) evs' in
      (s', calls (trace r) ++ cs)
  end.

(** Both buttons can be clicked. *)
Definition idle (s : LoginState) : Prop :=
  isLoading s = false /\ isGoogleLoading s = false.

(** The four messages [validateForm] can store. *)
Definition validation_messages : list jsstring :=
  [email_required; email_invalid; password_required; password_short].

(** The provider call of a mode, for given texts of the two fields. *)
Definition credentials_call (m : AuthMode) (e pw : jsstring) : call :=
  match m with
  | signUp => CreateUserWithEmailAndPassword (Str e) (Str pw)
  | signIn => SignInWithEmailAndPassword (Str e) (Str pw)
  end.

End Session.

(** * Properties *)

(** ** The monad *)

Module EffectsFacts.
Import Js Effects.

Section Laws.
Context {S : Type}.
Implicit Types (p : provider) (s : S) (l : list (entry S)).

Lemma bind_modify {B} (f : S -> S) (k : unit -> M S B) p s l :
  (modify f ≫= k) p s l = k tt p (f s) l.
Proof. reflexivity. Qed.

Lemma bind_emit {B} (c : call) (k : unit -> M S B) p s l :
  (emit c ≫= k) p s l = k tt p s (l ++ [(c, s)]).
Proof. reflexivity. Qed.

Lemma bind_assoc {A B C} (m : M S A) (f : A -> M S B) (g : B -> M S C) p s l :
  ((m ≫= f) ≫= g) p s l = (m ≫= fun a => f a ≫= g) p s l.
Proof.
  unfold mbind, M_bind, bind. destruct (m p s l) as [[[a|e] s'] l']; reflexivity.
Qed.

Lemma bind_await_fulfilled {B} (c : call) (k : unit -> M S B) p s l :
  p c = Fulfilled ->
  (await c ≫= k) p s l = k tt p s (l ++ [(c, s)]).
Proof. intros H. unfold mbind, M_bind, bind, await. by rewrite H. Qed.

Lemma bind_await_rejected {B} (c : call) (k : unit -> M S B) e p s l :
  p c = Rejected e ->
  (await c ≫= k) p s l = (Throw e, s, l ++ [(c, s)]).
Proof. intros H. unfold mbind, M_bind, bind, await. by rewrite H. Qed.

End Laws.

End EffectsFacts.

(** ** The matcher decides the language of the pattern *)

Module RegexFacts.
Import Js Regex.

Lemma star_then_spec p k s :
  star_then p k s = true <->
  exists w s', s = w ++ s' /\ forallb p w = true /\ k s' = true.
Proof.
  induction s as [|c s IH]; simpl.
  - split.
    + intros H. exists [], []. auto.
    + intros (w & s' & E & _ & K).
      symmetry in E. apply app_eq_nil in E as [-> ->]. exact K.
  - rewrite orb_true_iff, andb_true_iff, IH. split.
    + intros [[Pc (w & s' & -> & Pw & K)] | K].
      * exists (c :: w), s'. simpl. rewrite Pc, Pw. auto.
      * exists [], (c :: s). auto.
    + intros (w & s' & E & Pw & K). destruct w as [|d w]; simpl in *.
      * right. by subst s'.
      * injection E as <- ->. apply andb_true_iff in Pw as [Pd Pw].
        left. split; [done|]. eauto.
Qed.

Lemma matches_spec pat s : matches pat s = true <-> denotes pat s.
Proof.
  revert s. induction pat as [|[p|p] pat IH]; intros s; simpl.
  - destruct s; split; try done.
    + intros _. constructor.
    + inversion 1.
  - destruct s as [|c s].
    + split; [done | inversion 1].
    + rewrite andb_true_iff, IH. split.
      * intros [? ?]. by constructor.
      * inversion 1; subst. auto.
  - destruct s as [|c s].
    + split; [done|]. inversion 1 as [| |? ? w s' Hw ? ? E1 E2]; subst.
      destruct w; [done | discriminate].
    + rewrite andb_true_iff, star_then_spec. split.
      * intros [Pc (w & s' & -> & Pw & K)].
        change (c :: w ++ s') with ((c :: w) ++ s'). constructor.
        -- done.
        -- simpl. by rewrite Pc, Pw.
        -- by apply IH.
      * inversion 1 as [| |? ? w s' Hw Pw D E1 E2]; subst.
        destruct w as [|d w]; [done|]. simpl in E2. injection E2 as -> <-.
        simpl in Pw. apply andb_true_iff in Pw as [Pd Pw].
        split; [done|]. exists w, s'. split; [done|]. split; [done|].
        by apply IH.
Qed.

(** The pieces of an accepted address. *)
Lemma email_re_parts s :
  test email_re s = true ->
  exists a b d,
    s = a ++ [at_sign] ++ b ++ [dot] ++ d /\
    a <> [] /\ b <> [] /\ d <> [] /\
    forallb not_space_at a = true /\
    forallb not_space_at b = true /\
    forallb not_space_at d = true.
Proof.
  unfold test. rewrite matches_spec. unfold email_re. intros H.
  inversion H as [| |? ? a s1 Ha Pa H1]; subst; clear H.
  inversion H1 as [|? ? c s2 Pc H2|]; subst; clear H1.
  inversion H2 as [| |? ? b s3 Hb Pb H3]; subst; clear H2.
  inversion H3 as [|? ? c' s4 Pc' H4|]; subst; clear H3.
  inversion H4 as [| |? ? d s5 Hd Pd H5]; subst; clear H4.
  inversion H5; subst; clear H5.
  apply N.eqb_eq in Pc, Pc'. subst c c'.
  exists a, b, d. rewrite app_nil_r. done.
Qed.

(** X1: the email check accepts exactly the strings [local@domain.tld]
    whose three parts are non-empty and free of white space and of [@]
    (the domain and the last part may hold further dots). *)
Theorem email_re_spec s :
  test email_re s = true <->
  exists a b d,
    s = a ++ [at_sign] ++ b ++ [dot] ++ d /\
    a <> [] /\ b <> [] /\ d <> [] /\
    forallb not_space_at a = true /\
    forallb not_space_at b = true /\
    forallb not_space_at d = true.
Proof.
  split; [apply email_re_parts|].
  intros (a & b & d & -> & Ha & Hb & Hd & Pa & Pb & Pd).
  unfold test. rewrite matches_spec. unfold email_re.
  constructor; [done..|]. simpl. constructor; [apply N.eqb_refl|].
  constructor; [done..|]. simpl. constructor; [apply N.eqb_refl|].
  rewrite <- (app_nil_r d). constructor; [done..|]. constructor.
Qed.

(** What [[^\s@]+] lets through. *)
Lemma not_space_at_run (w : jsstring) :
  forallb not_space_at w = true ->
  Forall (fun ch => is_space ch = false) w /\
  count_occ N.eq_dec w at_sign = 0%nat.
Proof.
  induction w as [|ch w IH]; simpl; [done|].
  rewrite andb_true_iff. intros [Hc Hw]. destruct (IH Hw) as [F C].
  unfold not_space_at in Hc. apply negb_true_iff, orb_false_iff in Hc as [Hs Ha].
  apply N.eqb_neq in Ha. split; [by constructor|].
  destruct (N.eq_dec ch at_sign); [done | exact C].
Qed.

(** X2: an address that passes the check holds no white space, exactly
    one [@], at least one dot, and at least five code units. *)
Theorem accepted_email_shape s :
  test email_re s = true ->
  Forall (fun ch => is_space ch = false) s /\
  count_occ N.eq_dec s at_sign = 1%nat /\
  In dot s /\
  (5 <= length s)%nat.
Proof.
  intros H.
  destruct (email_re_parts s H) as (a & b & d & -> & Ha & Hb & Hd & Pa & Pb & Pd).
  destruct (not_space_at_run a Pa) as [Fa Ca].
  destruct (not_space_at_run b Pb) as [Fb Cb].
  destruct (not_space_at_run d Pd) as [Fd Cd].
  split; [|split; [|split]].
  - repeat (apply Forall_app; split); try done; by repeat constructor.
  - rewrite !count_occ_app, Ca, Cb, Cd. reflexivity.
  - rewrite !in_app_iff. right. right. right. left. by left.
  - rewrite !length_app. simpl.
    destruct a; [done|]. destruct b; [done|]. destruct d; [done|].
    simpl. lia.
Qed.

Lemma accepted_email_shape_witness :
  test email_re (lit "test@example.com") = true /\
  count_occ N.eq_dec (lit "test@example.com") at_sign = 1%nat.
Proof.
  assert (test email_re (lit "test@example.com") = true) as H by reflexivity.
  split; [exact H|].
  exact (proj1 (proj2 (accepted_email_shape (lit "test@example.com") H))).
Defined.

Lemma test_empty : test email_re [] = false.
Proof. reflexivity. Qed.

(** The addresses the test suite types. *)
Example test_accepts_address : test email_re (lit "test@example.com") = true.
Proof. reflexivity. Qed.

Example test_rejects_missing_at : test email_re (lit "invalid-email") = false.
Proof. reflexivity. Qed.

Example test_rejects_space : test email_re (lit "a b@example.com") = false.
Proof. reflexivity. Qed.

Example test_rejects_second_at : test email_re (lit "a@b@example.com") = false.
Proof. reflexivity. Qed.

Example test_accepts_dots_in_domain : test email_re (lit "a@mail.example.com") = true.
Proof. reflexivity. Qed.

End RegexFacts.

(** ** The login form *)

Module LoginSpec.
Import Js Regex Effects EffectsFacts Login.

Implicit Types (c s : LoginState) (p : provider).

(** *** Validation *)

Lemma strprop_email c :
  (email c = [] /\ truthy (strprop (formData c) "email") = false) \/
  (email c <> [] /\ strprop (formData c) "email" = Str (email c)).
Proof.
  unfold email, strprop. destruct (formData c !! "email") as [[|x e]|]; simpl; auto.
Qed.

Lemma strprop_password c :
  (password c = [] /\ truthy (strprop (formData c) "password") = false) \/
  (password c <> [] /\ strprop (formData c) "password" = Str (password c)).
Proof.
  unfold password, strprop.
  destruct (formData c !! "password") as [[|x e]|]; simpl; auto.
Qed.

Lemma validate_email_cases c :
  (email c = [] /\
   forall m : obj value, validate_email c m = <["email" := Str email_required]> m) \/
  (email c <> [] /\ test email_re (email c) = false /\
   forall m : obj value, validate_email c m = <["email" := Str email_invalid]> m) \/
  (email c <> [] /\ test email_re (email c) = true /\
   forall m : obj value, validate_email c m = m).
Proof.
  unfold validate_email.
  destruct (strprop_email c) as [[E T]|[E ->]].
  - left. split; [done|]. intros m.
    destruct (strprop (formData c) "email") as [|[|? ?]]; done.
  - right. destruct (email c) as [|x e] eqn:Ee; [done|].
    destruct (test email_re (x :: e)); simpl; auto.
Qed.

Lemma validate_password_cases c :
  (password c = [] /\
   forall m : obj value,
     validate_password c m = <["password" := Str password_required]> m) \/
  (password c <> [] /\ (length (password c) < 6)%nat /\
   forall m : obj value,
     validate_password c m = <["password" := Str password_short]> m) \/
  ((6 <= length (password c))%nat /\
   forall m : obj value, validate_password c m = m).
Proof.
  unfold validate_password.
  destruct (strprop_password c) as [[E T]|[E ->]].
  - left. split; [done|]. intros m.
    destruct (strprop (formData c) "password") as [|[|? ?]]; done.
  - right. destruct (password c) as [|x e] eqn:Ee; [done|].
    destruct (length (x :: e) <? 6)%nat eqn:L.
    + left. apply Nat.ltb_lt in L. auto.
    + right. apply Nat.ltb_ge in L. auto.
Qed.

(** The object [validateForm] builds and stores. *)
Lemma validateForm_run c p s l :
  validateForm c p s l =
  (Normal (bool_decide (size (validate_password c (validate_email c ∅)) = 0%nat)),
   with_errors (fun _ => validate_password c (validate_email c ∅)) s, l).
Proof. reflexivity. Qed.

(** The entries of that object, field by field. *)
Lemma email_entry c :
  validate_password c (validate_email c ∅) !! "email" =
  if bool_decide (email c = []) then Some (Str email_required)
  else if test email_re (email c) then None
  else Some (Str email_invalid).
Proof.
  assert (forall m : obj value, validate_password c m !! "email" = m !! "email") as ->.
  { intros m. destruct (validate_password_cases c) as [[_ ->]|[(_ & _ & ->)|(_ & ->)]];
      try done; by rewrite lookup_insert_ne. }
  destruct (validate_email_cases c) as [[E ->]|[(E & T & ->)|(E & T & ->)]].
  - by rewrite bool_decide_eq_true_2, lookup_insert_eq.
  - by rewrite bool_decide_eq_false_2, T, lookup_insert_eq.
  - by rewrite bool_decide_eq_false_2, T.
Qed.

Lemma password_entry c :
  validate_password c (validate_email c ∅) !! "password" =
  if bool_decide (password c = []) then Some (Str password_required)
  else if (length (password c) <? 6)%nat then Some (Str password_short)
  else None.
Proof.
  assert (validate_email c ∅ !! "password" = None) as He.
  { destruct (validate_email_cases c) as [[_ ->]|[(_ & _ & ->)|(_ & _ & ->)]];
      try done; by rewrite lookup_insert_ne. }
  destruct (validate_password_cases c) as [[E ->]|[(E & L & ->)|(L & ->)]].
  - by rewrite bool_decide_eq_true_2, lookup_insert_eq.
  - apply Nat.ltb_lt in L. by rewrite bool_decide_eq_false_2, L, lookup_insert_eq.
  - assert (password c <> []) by (intros E; rewrite E in L; simpl in L; lia).
    apply Nat.ltb_ge in L. by rewrite bool_decide_eq_false_2, L, He.
Qed.

Lemma validateForm_true c :
  test email_re (email c) = true -> (6 <= length (password c))%nat ->
  validate_password c (validate_email c ∅) = ∅.
Proof.
  intros He Hp.
  destruct (validate_email_cases c) as [[E _]|[(_ & T & _)|(_ & _ & ->)]].
  - rewrite E in He. discriminate.
  - congruence.
  - destruct (validate_password_cases c) as [[E _]|[(_ & L & _)|(_ & ->)]].
    + rewrite E in Hp. simpl in Hp. lia.
    + lia.
    + done.
Qed.

Lemma validateForm_false c :
  email c = [] \/ test email_re (email c) = false \/
  password c = [] \/ (length (password c) < 6)%nat ->
  size (validate_password c (validate_email c ∅)) <> 0%nat.
Proof.
  intros H. rewrite map_size_empty_iff.
  destruct (validate_password_cases c)
    as [[_ ->]|[(_ & _ & ->)|(L & ->)]]; try apply insert_non_empty.
  destruct (validate_email_cases c)
    as [[_ ->]|[(_ & _ & ->)|(N & T & _)]]; try apply insert_non_empty.
  destruct H as [H|[H|[H|H]]]; try congruence.
  - rewrite H in L. simpl in L. lia.
  - lia.
Qed.

(** Every form is valid or invalid, in the words of the claims. *)
Lemma valid_or_invalid c :
  (test email_re (email c) = true /\ (6 <= length (password c))%nat) \/
  (email c = [] \/ test email_re (email c) = false \/
   password c = [] \/ (length (password c) < 6)%nat).
Proof.
  destruct (test email_re (email c)); [|auto].
  destruct (Nat.le_gt_cases 6 (length (password c))); auto.
Qed.

(** *** Running the handlers *)

Lemma bind_validateForm {B} c (k : bool -> M LoginState B) p s l :
  (validateForm c ≫= k) p s l =
  k (bool_decide (size (validate_password c (validate_email c ∅)) = 0%nat)) p
    (with_errors (fun _ => validate_password c (validate_email c ∅)) s) l.
Proof. reflexivity. Qed.

Ltac setters :=
  unfold setFormData, setFormData_fn, setErrors, setErrors_fn, setIsLoading,
    setIsGoogleLoading, setIsRedirecting, setSuccessMessage, setAuthError,
    setAuthMode.

Ltac steps := setters; rewrite ?bind_emit, ?bind_modify.

(** The states [handleSubmit] goes through. *)
Lemma handleSubmit_invalid c p s :
  size (validate_password c (validate_email c ∅)) <> 0%nat ->
  exec (handleSubmit c) p s =
  Run (Normal tt)
      (with_errors (fun _ => validate_password c (validate_email c ∅))
         (with_isRedirecting false (with_authError [] (with_successMessage [] s))))
      [(PreventDefault, s)].
Proof.
  intros H. unfold exec, handleSubmit. steps.
  rewrite bind_validateForm, bool_decide_eq_false_2 by done.
  reflexivity.
Qed.

Lemma handleSubmit_fulfilled c p s :
  test email_re (email c) = true -> (6 <= length (password c))%nat ->
  p (submit_call c) = Fulfilled ->
  let s1 := with_isLoading true
              (with_errors (fun _ => ∅)
                 (with_isRedirecting false
                    (with_authError [] (with_successMessage [] s)))) in
  let s2 := with_isRedirecting true
              (with_formData (fun _ => cleared)
                 (with_successMessage (success_text (authMode c)) s1)) in
  exec (handleSubmit c) p s =
  Run (Normal tt) (with_isLoading false s2)
      [(PreventDefault, s); (submit_call c, s1);
       (SetTimeout 1000, s2); (RouterPush "/dashboard", s2)].
Proof.
  intros He Hp Hf s1 s2. subst s1 s2. unfold exec, handleSubmit. steps.
  rewrite bind_validateForm, validateForm_true by done.
  rewrite bool_decide_eq_true_2 by apply map_size_empty.
  cbv beta iota delta [negb]. steps.
  unfold submit_call in *. unfold try_finally, try_catch.
  destruct (authMode c);
    rewrite bind_assoc, (bind_await_fulfilled _ _ _ _ _ Hf); steps; reflexivity.
Qed.

Lemma handleSubmit_rejected c p s e :
  test email_re (email c) = true -> (6 <= length (password c))%nat ->
  p (submit_call c) = Rejected e ->
  let s1 := with_isLoading true
              (with_errors (fun _ => ∅)
                 (with_isRedirecting false
                    (with_authError [] (with_successMessage [] s)))) in
  exec (handleSubmit c) p s =
  Run (Normal tt)
      (with_isLoading false (with_authError (message_of login_failed e) s1))
      [(PreventDefault, s); (submit_call c, s1)].
Proof.
  intros He Hp Hf s1. subst s1. unfold exec, handleSubmit. steps.
  rewrite bind_validateForm, validateForm_true by done.
  rewrite bool_decide_eq_true_2 by apply map_size_empty.
  cbv beta iota delta [negb]. steps.
  unfold submit_call in *. unfold try_finally, try_catch.
  destruct (authMode c);
    rewrite bind_assoc, (bind_await_rejected _ _ _ _ _ _ Hf); reflexivity.
Qed.

Lemma handleGoogleSignIn_fulfilled p s :
  p SignInWithPopup = Fulfilled ->
  let s1 := with_isGoogleLoading true
              (with_isRedirecting false
                 (with_authError [] (with_successMessage [] s))) in
  let s2 := with_isRedirecting true (with_successMessage login_successful s1) in
  exec handleGoogleSignIn p s =
  Run (Normal tt) (with_isGoogleLoading false s2)
      [(SignInWithPopup, s1); (SetTimeout 1000, s2); (RouterPush "/dashboard", s2)].
Proof.
  intros Hf s1 s2. subst s1 s2. unfold exec, handleGoogleSignIn. steps.
  unfold try_finally, try_catch.
  rewrite (bind_await_fulfilled _ _ _ _ _ Hf). steps. reflexivity.
Qed.

Lemma handleGoogleSignIn_rejected p s e :
  p SignInWithPopup = Rejected e ->
  let s1 := with_isGoogleLoading true
              (with_isRedirecting false
                 (with_authError [] (with_successMessage [] s))) in
  exec handleGoogleSignIn p s =
  Run (Normal tt)
      (with_isGoogleLoading false (with_authError (message_of google_login_failed e) s1))
      [(SignInWithPopup, s1)].
Proof.
  intros Hf s1. subst s1. unfold exec, handleGoogleSignIn. steps.
  unfold try_finally, try_catch.
  rewrite (bind_await_rejected _ _ _ _ _ _ Hf). reflexivity.
Qed.

(** *** What validation stores *)

(** C7: for a non-empty email, [validateForm] stores the email-format error
    exactly when the email fails the regular expression (and no email
    error at all when it passes); for an empty email it stores the
    required-field error, which is not the format error. *)
Theorem email_format_error_iff c p s :
  let r := exec (validateForm c) p s in
  (email c <> [] ->
   (errors (final r) !! "email" = Some (Str email_invalid) <->
    test email_re (email c) = false) /\
   (errors (final r) !! "email" = None <-> test email_re (email c) = true)) /\
  (email c = [] ->
   errors (final r) !! "email" = Some (Str email_required) /\
   errors (final r) !! "email" <> Some (Str email_invalid) /\
   email_error (render (final r)) = Some email_required).
Proof.
  unfold exec. rewrite validateForm_run. cbn [final errors with_errors].
  split.
  - intros E. rewrite email_entry, bool_decide_eq_false_2 by done.
    destruct (test email_re (email c)); split; split; done.
  - intros E. unfold render, prop. cbn [email_error errors with_errors].
    rewrite email_entry, bool_decide_eq_true_2 by done. done.
Qed.

Lemma email_format_error_iff_witness :
  email mistyped <> [] /\
  errors (final (exec (validateForm mistyped) fulfilling mistyped)) !! "email"
  = Some (Str email_invalid).
Proof.
  assert (email mistyped <> []) as E by (vm_compute; discriminate).
  split; [exact E|].
  apply (proj1 (email_format_error_iff mistyped fulfilling mistyped) E).
  reflexivity.
Defined.

(** *** Submitting *)

(** C1: when the email or the password is empty or fails its check,
    [handleSubmit] stores the error of each failing field (and none for a
    field that passes), returns normally, and its only call is
    [preventDefault]: the provider is never called.  With both fields empty
    both errors are stored and shown. *)
Theorem submit_invalid_form c p s :
  email c = [] \/ test email_re (email c) = false \/
  password c = [] \/ (length (password c) < 6)%nat ->
  let r := exec (handleSubmit c) p s in
  returned r = Normal tt /\
  calls (trace r) = [PreventDefault] /\
  Forall (fun k => is_provider_call k = false) (calls (trace r)) /\
  (email c = [] -> errors (final r) !! "email" = Some (Str email_required)) /\
  (email c <> [] -> test email_re (email c) = false ->
   errors (final r) !! "email" = Some (Str email_invalid)) /\
  (test email_re (email c) = true -> errors (final r) !! "email" = None) /\
  (password c = [] ->
   errors (final r) !! "password" = Some (Str password_required)) /\
  (password c <> [] -> (length (password c) < 6)%nat ->
   errors (final r) !! "password" = Some (Str password_short)) /\
  ((6 <= length (password c))%nat -> errors (final r) !! "password" = None) /\
  (email c = [] -> password c = [] ->
   email_error (render (final r)) = Some email_required /\
   password_error (render (final r)) = Some password_required).
Proof.
  intros H r. subst r.
  rewrite (handleSubmit_invalid c p s (validateForm_false c H)).
  unfold render, prop. cbn [returned trace final errors with_errors email_error password_error].
  rewrite email_entry, password_entry.
  split; [done|]. split; [done|]. split; [by repeat constructor|].
  split; [intros E; by rewrite bool_decide_eq_true_2|].
  split; [intros E T; by rewrite bool_decide_eq_false_2, T|].
  split.
  { intros T. rewrite T, bool_decide_eq_false_2; [done|].
    intros E. rewrite E in T. discriminate. }
  split; [intros E; by rewrite bool_decide_eq_true_2|].
  split.
  { intros E L. apply Nat.ltb_lt in L. by rewrite bool_decide_eq_false_2, L. }
  split.
  { intros L. rewrite bool_decide_eq_false_2.
    - apply Nat.ltb_ge in L. by rewrite L.
    - intros E. rewrite E in L. simpl in L. lia. }
  intros E1 E2. by rewrite !bool_decide_eq_true_2.
Qed.

Lemma submit_invalid_form_witness :
  (email initial = [] \/ test email_re (email initial) = false \/
   password initial = [] \/ (length (password initial) < 6)%nat) /\
  calls (trace (exec (handleSubmit initial) fulfilling initial)) = [PreventDefault].
Proof.
  assert (email initial = [] \/ test email_re (email initial) = false \/
          password initial = [] \/ (length (password initial) < 6)%nat) as H
    by (left; reflexivity).
  split; [exact H|].
  exact (proj1 (proj2 (submit_invalid_form initial fulfilling initial H))).
Defined.

(** C2: a valid form whose provider call is fulfilled.  The handler calls
    the provider, then sets the success message, resets the form to
    [{email: '', password: ''}] and raises the redirecting flag; in that
    state it waits 1000 ms, and then it pushes [/dashboard]. *)
Theorem submit_success c p s :
  test email_re (email c) = true -> (6 <= length (password c))%nat ->
  p (submit_call c) = Fulfilled ->
  let r := exec (handleSubmit c) p s in
  returned r = Normal tt /\
  formData (final r) = {[ "email" := []; "password" := [] ]} /\
  exists s1 s2,
    trace r = [(PreventDefault, s); (submit_call c, s1);
               (SetTimeout 1000, s2); (RouterPush "/dashboard", s2)] /\
    successMessage s2 = success_text (authMode c) /\
    success_message (render s2) = Some (success_text (authMode c)) /\
    isRedirecting s2 = true /\
    formData s2 = {[ "email" := []; "password" := [] ]} /\
    formData s1 = formData s.
Proof.
  intros He Hp Hf r. subst r. rewrite (handleSubmit_fulfilled c p s He Hp Hf).
  split; [done|]. split; [done|]. eexists _, _. split; [reflexivity|].
  split; [done|]. split; [by destruct (authMode c)|]. done.
Qed.

Lemma submit_success_witness :
  test email_re (email filled) = true /\
  formData (final (exec (handleSubmit filled) fulfilling filled))
  = {[ "email" := []; "password" := [] ]}.
Proof.
  assert (test email_re (email filled) = true) as He by reflexivity.
  assert (6 <= length (password filled))%nat as Hp by (vm_compute; lia).
  split; [exact He|].
  exact (proj1 (proj2 (submit_success filled fulfilling filled He Hp eq_refl))).
Defined.

(** C9: a valid form whose provider call is rejected.  The form data are
    the ones before the submit, at the end and at every call; the calls are
    [preventDefault] and the provider call: no timer, no navigation. *)
Theorem submit_failure_keeps_form c p s e :
  test email_re (email c) = true -> (6 <= length (password c))%nat ->
  p (submit_call c) = Rejected e ->
  let r := exec (handleSubmit c) p s in
  formData (final r) = formData s /\
  Forall (fun x => formData x.2 = formData s) (trace r) /\
  calls (trace r) = [PreventDefault; submit_call c] /\
  Forall (fun k => is_navigation k = false) (calls (trace r)).
Proof.
  intros He Hp Hf r. subst r. rewrite (handleSubmit_rejected c p s e He Hp Hf).
  split; [done|]. split; [by repeat constructor|]. split; [done|].
  cbn [trace calls fmap list_fmap fst]. repeat constructor.
  unfold submit_call. by destruct (authMode c).
Qed.

Lemma submit_failure_keeps_form_witness :
  test email_re (email filled) = true /\
  formData (final (exec (handleSubmit filled) (rejecting invalid_credential) filled))
  = formData filled.
Proof.
  assert (test email_re (email filled) = true) as He by reflexivity.
  assert (6 <= length (password filled))%nat as Hp by (vm_compute; lia).
  split; [exact He|].
  exact (proj1 (submit_failure_keeps_form filled (rejecting invalid_credential)
                  filled invalid_credential He Hp eq_refl)).
Defined.

(** *** Provider failures *)


(** The hypothesis of the next theorem is not idle: after a rejection with
    an [Error] whose message is empty, [authError] is the empty string and
    the [auth-error] element is not rendered. *)
Lemma empty_error_is_not_rendered :
  ~ failure_is_rendered google_login_failed empty_error
      (final (exec handleGoogleSignIn (rejecting empty_error) initial)).
Proof. unfold failure_is_rendered. vm_compute. discriminate. Qed.




(** *** The two loading flags *)

(** C3 fails as stated: while the sign-in call of the filled-in form is
    pending, [isLoading] is set and the Google button is disabled. *)
Lemma pending_sign_in_blocks_google : ~ paths_do_not_block pending_sign_in.
Proof. intros [H _]. specialize (H eq_refl). discriminate H. Qed.

(** That state is the one logged with the provider call of the run. *)
Lemma pending_sign_in_is_reached :
  trace (exec (handleSubmit filled) fulfilling filled) !! 1%nat
  = Some (submit_call filled, pending_sign_in) /\
  isLoading pending_sign_in = true /\ isGoogleLoading pending_sign_in = false /\
  google_disabled (render pending_sign_in) = true.
Proof.
  assert (test email_re (email filled) = true) as He by reflexivity.
  assert (6 <= length (password filled))%nat as Hp by (vm_compute; lia).
  rewrite (handleSubmit_fulfilled filled fulfilling filled He Hp eq_refl).
  split; [reflexivity|]. done.
Qed.

(** C3, amended: the two paths keep separate loading flags, and each
    handler leaves the flag of the other path as it found it, at every call
    and at the end; but both buttons are disabled while either flag is
    set, so a path that is in flight does block the other. *)
Theorem loading_flags_separate_triggers_shared c p s :
  (let r := exec (handleSubmit c) p s in
   isGoogleLoading (final r) = isGoogleLoading s /\
   Forall (fun x => isGoogleLoading x.2 = isGoogleLoading s) (trace r)) /\
  (let g := exec handleGoogleSignIn p s in
   isLoading (final g) = isLoading s /\
   Forall (fun x => isLoading x.2 = isLoading s) (trace g)) /\
  submit_disabled (render s) = isLoading s || isGoogleLoading s /\
  google_disabled (render s) = isLoading s || isGoogleLoading s.
Proof.
  split; [|split; [|done]].
  - destruct (valid_or_invalid c) as [[He Hp]|Hi].
    + destruct (p (submit_call c)) as [|e] eqn:Hf.
      * rewrite (handleSubmit_fulfilled c p s He Hp Hf).
        split; [done | by repeat constructor].
      * rewrite (handleSubmit_rejected c p s e He Hp Hf).
        split; [done | by repeat constructor].
    + rewrite (handleSubmit_invalid c p s (validateForm_false c Hi)).
      split; [done | by repeat constructor].
  - destruct (p SignInWithPopup) as [|e] eqn:Hf.
    + rewrite (handleGoogleSignIn_fulfilled p s Hf).
      split; [done | by repeat constructor].
    + rewrite (handleGoogleSignIn_rejected p s e Hf).
      split; [done | by repeat constructor].
Qed.

(** *** Editing *)

(** For a key that [Object.prototype] does not have, such as the names of
    the two inputs, [errors[name]] is the own entry. *)
Lemma truthy_at_own (o : obj value) (k : string) :
  k ∉ object_prototype -> truthy_at o k = truthy (prop o k).
Proof.
  intros Hk. unfold truthy_at, prop. destruct (o !! k); [done|].
  by rewrite bool_decide_eq_false_2.
Qed.

Lemma field_not_inherited (name : string) :
  name = "email" \/ name = "password" -> name ∉ object_prototype.
Proof.
  intros [-> | ->]; unfold object_prototype; rewrite !not_elem_of_cons;
    repeat split; try discriminate; apply not_elem_of_nil.
Qed.

(** A name that [Object.prototype] has reads as truthy on an object that
    does not own it, and the handler then stores [undefined] under it. *)
Example edit_of_inherited_name :
  truthy_at (errors initial) "constructor" = true /\
  errors (final (exec (handleChange initial "constructor" (lit "x"))
                   fulfilling initial)) !! "constructor" = Some Undefined.
Proof. split; reflexivity. Qed.

(** C8: an edit of a field whose error is set (truthy) in the render of the
    handler stores [undefined] for that field, so that its error is no
    longer shown, and leaves the entry of every other field as it was; an
    edit of a field without an error leaves the [errors] object as it was.
    In both cases the field takes the new text.  The handler decides by
    [errors[name]], which for the two inputs of the form, [email] and
    [password], is the field's own entry. *)
Theorem edit_clears_only_that_field c p s (name : string) (value : jsstring) :
  let r := exec (handleChange c name value) p s in
  formData (final r) = <[name := value]> (formData s) /\
  (truthy_at (errors c) name = true ->
   errors (final r) !! name = Some Undefined /\
   shown (prop (errors (final r)) name) = None /\
   forall other : string, other <> name ->
     errors (final r) !! other = errors s !! other) /\
  (truthy_at (errors c) name = false -> errors (final r) = errors s) /\
  (name = "email" \/ name = "password" ->
   truthy_at (errors c) name = truthy (prop (errors c) name)).
Proof.
  unfold exec, handleChange. steps.
  split; [by destruct (truthy_at (errors c) name)|].
  split; [|split].
  - intros ->. cbn. unfold prop. rewrite lookup_insert_eq.
    split; [done|]. split; [done|].
    intros other Hne. by rewrite lookup_insert_ne.
  - by intros ->.
  - intros Hn. apply truthy_at_own, field_not_inherited, Hn.
Qed.

Lemma edit_clears_only_that_field_witness :
  truthy_at (errors after_empty_submit) "email" = true /\
  email_error (render (final (exec (handleChange after_empty_submit "email" (lit "t"))
                                fulfilling after_empty_submit))) = None /\
  password_error (render (final (exec (handleChange after_empty_submit "email" (lit "t"))
                                   fulfilling after_empty_submit)))
  = Some password_required.
Proof.
  assert (truthy_at (errors after_empty_submit) "email" = true) as H
    by reflexivity.
  split; [exact H|].
  destruct (proj1 (proj2 (edit_clears_only_that_field after_empty_submit fulfilling
                            after_empty_submit "email" (lit "t"))) H)
    as (_ & Hshown & Hother).
  split; [exact Hshown|].
  unfold render, prop. cbn [password_error].
  rewrite (Hother "password"); [reflexivity | discriminate].
Defined.

End LoginSpec.

(** ** The dashboard page *)

Module DashboardSpec.
Import Js Effects EffectsFacts Dashboard.

Implicit Types (c s : DashboardState) (p : provider).

Ltac steps :=
  unfold setIsSigningOut, setSignOutMessage; rewrite ?bind_emit, ?bind_modify.

Lemma handleSignOut_fulfilled p s :
  p SignOut = Fulfilled ->
  let s1 := {| isSigningOut := true; signOutMessage := signed_out |} in
  exec handleSignOut p s =
  Run (Normal tt) s1
      [(SignOut, s1); (SetTimeout 1000, s1); (RouterReplace "/login", s1)].
Proof.
  intros Hf s1. subst s1. unfold exec, handleSignOut. steps.
  unfold try_catch. rewrite (bind_await_fulfilled _ _ _ _ _ Hf). steps.
  reflexivity.
Qed.

Lemma handleSignOut_rejected p s e :
  p SignOut = Rejected e ->
  exec handleSignOut p s =
  Run (Normal tt) {| isSigningOut := false; signOutMessage := sign_out_failed |}
      [(SignOut, {| isSigningOut := true; signOutMessage := signed_out |})].
Proof.
  intros Hf. unfold exec, handleSignOut. steps.
  unfold try_catch. rewrite (bind_await_rejected _ _ _ _ _ _ Hf). steps.
  reflexivity.
Qed.

(** C4: the auth-state listener replaces the location with [/login] when
    it is given no user while the signing-out flag of its render is not
    set; with a user, or with the flag set, it makes no call at all.  It
    never changes the state. *)
Theorem listener_redirects_iff c p s (user : option User) :
  let r := exec (authStateListener c user) p s in
  returned r = Normal tt /\ final r = s /\
  (user = None -> isSigningOut c = false ->
   trace r = [(RouterReplace "/login", s)]) /\
  (is_Some user \/ isSigningOut c = true -> trace r = []).
Proof.
  unfold exec, authStateListener.
  destruct user as [u|], (isSigningOut c); cbn; repeat split; try done.
  - intros [[? ?]|?]; done.
Qed.

Lemma listener_redirects_iff_witness :
  trace (exec (authStateListener initial None) fulfilling initial)
  = [(RouterReplace "/login", initial)] /\
  trace (exec (authStateListener initial (Some {| uid := lit "test-user" |}))
           fulfilling initial) = [].
Proof.
  split.
  - exact (proj1 (proj2 (proj2 (listener_redirects_iff initial fulfilling initial None)))
             eq_refl eq_refl).
  - refine (proj2 (proj2 (proj2 (listener_redirects_iff initial fulfilling initial
                                   (Some {| uid := lit "test-user" |})))) _).
    left. eexists. reflexivity.
Defined.

(** C6: when the provider rejects the sign-out, [handleSignOut] returns
    normally with the signing-out flag reset to [false] and the message
    [Sign out failed. Please try again.], which is shown; its only call is
    the provider call, so it performs no redirect. *)
Theorem sign_out_failure p s e :
  p SignOut = Rejected e ->
  let r := exec handleSignOut p s in
  returned r = Normal tt /\
  isSigningOut (final r) = false /\
  signOutMessage (final r) = lit "Sign out failed. Please try again." /\
  signout_message (render (final r)) = Some (lit "Sign out failed. Please try again.") /\
  calls (trace r) = [SignOut] /\
  Forall (fun k => is_navigation k = false) (calls (trace r)).
Proof.
  intros Hf r. subst r. rewrite (handleSignOut_rejected p s e Hf).
  repeat split; try done. by repeat constructor.
Qed.

Lemma sign_out_failure_witness :
  calls (trace (exec handleSignOut (rejecting NotAnError) initial)) = [SignOut].
Proof.
  exact (proj1 (proj2 (proj2 (proj2 (proj2
    (sign_out_failure (rejecting NotAnError) initial NotAnError eq_refl)))))).
Defined.

(** C10: whatever the provider answers, the first call of [handleSignOut]
    is the provider's sign-out, and the state at that call, the one on
    screen until the call settles, has the signing-out flag set and shows
    [Signed out successfully!]. *)
Theorem sign_out_message_precedes_provider p s :
  let r := exec handleSignOut p s in
  exists s1 rest,
    trace r = (SignOut, s1) :: rest /\
    isSigningOut s1 = true /\
    signOutMessage s1 = lit "Signed out successfully!" /\
    signout_message (render s1) = Some (lit "Signed out successfully!").
Proof.
  destruct (p SignOut) as [|e] eqn:Hf.
  - rewrite (handleSignOut_fulfilled p s Hf). eexists _, _. by split.
  - rewrite (handleSignOut_rejected p s e Hf). eexists _, _. by split.
Qed.

End DashboardSpec.

(** ** More on the login form *)

Module LoginProps.
Import Js Regex Effects EffectsFacts Login Session LoginSpec.

Implicit Types (c s : LoginState) (p : provider).

(** *** Validation *)

Lemma other_entry c (k : string) :
  k <> "email" -> k <> "password" ->
  validate_password c (validate_email c ∅) !! k = None.
Proof.
  intros H1 H2.
  destruct (validate_password_cases c) as [[_ ->]|[(_ & _ & ->)|(_ & ->)]];
  destruct (validate_email_cases c) as [[_ ->]|[(_ & _ & ->)|(_ & _ & ->)]];
    by rewrite ?lookup_insert_ne.
Qed.

(** X3: [validateForm] returns [true] exactly when the email matches the
    pattern and the password has six code units or more, which is exactly
    when the object it stores is empty.  It stores a fresh object, whatever
    [errors] held before: only the keys [email] and [password] occur and
    each entry is one of the four messages (never [undefined]).  It makes
    no outside call. *)
Theorem validateForm_rebuilds_errors c p s :
  let r := exec (validateForm c) p s in
  exists b : bool,
    returned r = Normal b /\
    (b = true <-> test email_re (email c) = true /\ (6 <= length (password c))%nat) /\
    (b = true <-> errors (final r) = ∅) /\
    (forall k v, errors (final r) !! k = Some v ->
       (k = "email" \/ k = "password") /\
       exists m, v = Str m /\ In m validation_messages) /\
    trace r = [].
Proof.
  unfold exec. rewrite validateForm_run. cbn [returned final trace errors with_errors].
  eexists. split; [reflexivity|].
  split; [|split; [|split; [|done]]].
  - rewrite bool_decide_eq_true. split.
    + intros Hz. destruct (valid_or_invalid c) as [Hv|Hi]; [done|].
      by destruct (validateForm_false c Hi).
    + intros [He Hp]. rewrite (validateForm_true c He Hp). apply map_size_empty.
  - rewrite bool_decide_eq_true. apply map_size_empty_iff.
  - intros k v Hk.
    destruct (decide (k = "email")) as [->|N1].
    { split; [by left|]. rewrite email_entry in Hk. unfold validation_messages.
      repeat case_match; simplify_eq; eexists; (split; [reflexivity|]); simpl; auto. }
    destruct (decide (k = "password")) as [->|N2].
    { split; [by right|]. rewrite password_entry in Hk. unfold validation_messages.
      repeat case_match; simplify_eq; eexists; (split; [reflexivity|]); simpl; auto. }
    by rewrite other_entry in Hk.
Qed.

(** *** Editing *)

(** X4: an edit stores the new text under the name of the input, so that
    the input shows it, and leaves every other key of [formData] as it
    was; the flags, the two banners and the mode are untouched and no
    outside call is made. *)
Theorem handleChange_updates_field c p s (name : string) (value : jsstring) :
  let r := exec (handleChange c name value) p s in
  returned r = Normal tt /\
  trace r = [] /\
  formData (final r) !! name = Some value /\
  strprop (formData (final r)) name = Str value /\
  (forall k : string, k <> name -> formData (final r) !! k = formData s !! k) /\
  isLoading (final r) = isLoading s /\
  isGoogleLoading (final r) = isGoogleLoading s /\
  isRedirecting (final r) = isRedirecting s /\
  successMessage (final r) = successMessage s /\
  authError (final r) = authError s /\
  authMode (final r) = authMode s.
Proof.
  unfold exec, handleChange. steps.
  assert (forall m : obj jsstring, strprop (<[name := value]> m) name = Str value) as Hs.
  { intros m. unfold strprop. by rewrite lookup_insert_eq. }
  destruct (truthy_at (errors c) name); cbn;
    rewrite Hs, lookup_insert_eq; repeat split; try done;
    intros k Hk; by rewrite lookup_insert_ne.
Qed.

(** *** Submitting *)

Lemma submit_call_cases c :
  (exists e pw, submit_call c = SignInWithEmailAndPassword e pw) \/
  (exists e pw, submit_call c = CreateUserWithEmailAndPassword e pw).
Proof. unfold submit_call. destruct (authMode c); eauto. Qed.

(** The three ways a submit can go. *)
Lemma handleSubmit_cases c p s :
  let r := exec (handleSubmit c) p s in
  ((email c = [] \/ test email_re (email c) = false \/
    password c = [] \/ (length (password c) < 6)%nat) /\
   calls (trace r) = [PreventDefault]) \/
  (test email_re (email c) = true /\ (6 <= length (password c))%nat /\
   p (submit_call c) = Fulfilled /\
   calls (trace r) = [PreventDefault; submit_call c; SetTimeout 1000;
                      RouterPush "/dashboard"]) \/
  (test email_re (email c) = true /\ (6 <= length (password c))%nat /\
   (exists e, p (submit_call c) = Rejected e) /\
   calls (trace r) = [PreventDefault; submit_call c]).
Proof.
  destruct (valid_or_invalid c) as [[He Hp]|Hi].
  - destruct (p (submit_call c)) as [|e] eqn:Hf.
    + right. left. rewrite (handleSubmit_fulfilled c p s He Hp Hf). done.
    + right. right. rewrite (handleSubmit_rejected c p s e He Hp Hf).
      repeat split; eauto.
  - left. rewrite (handleSubmit_invalid c p s (validateForm_false c Hi)). done.
Qed.

Lemma submit_call_is_provider c : is_provider_call (submit_call c) = true.
Proof. unfold submit_call. by destruct (authMode c). Qed.

(** All the calls of a submit. *)
Lemma handleSubmit_calls c p s :
  calls (trace (exec (handleSubmit c) p s)) =
  PreventDefault ::
    (if test email_re (email c) && (6 <=? length (password c))%nat
     then submit_call c ::
            match p (submit_call c) with
            | Fulfilled => [SetTimeout 1000; RouterPush "/dashboard"]
            | Rejected _ => []
            end
     else []).
Proof.
  destruct (handleSubmit_cases c p s)
    as [[Hi ->]|[(He & Hp & Hf & ->)|(He & Hp & [e Hf] & ->)]].
  - assert (test email_re (email c) && (6 <=? length (password c))%nat = false) as ->;
      [|done].
    apply andb_false_iff. destruct Hi as [E|[E|[E|E]]].
    + left. by rewrite E.
    + by left.
    + right. by rewrite E.
    + right. by apply Nat.leb_gt.
  - apply Nat.leb_le in Hp. by rewrite He, Hp, Hf.
  - apply Nat.leb_le in Hp. by rewrite He, Hp, Hf.
Qed.

(** X5: the calls of [handleSubmit] are [preventDefault] and, exactly when
    the form is valid, one call of the provider, the one of its mode; no
    other provider function is called, on a valid form or an invalid one.
    The timer and the push to [/dashboard] follow exactly when that call is
    fulfilled, and [/dashboard] is the only place the handler ever
    navigates to. *)
Theorem submit_navigates_iff c p s :
  let r := exec (handleSubmit c) p s in
  calls (trace r) =
    PreventDefault ::
      (if test email_re (email c) && (6 <=? length (password c))%nat
       then submit_call c ::
              match p (submit_call c) with
              | Fulfilled => [SetTimeout 1000; RouterPush "/dashboard"]
              | Rejected _ => []
              end
       else []) /\
  List.filter is_provider_call (calls (trace r)) =
    (if test email_re (email c) && (6 <=? length (password c))%nat
     then [submit_call c] else []) /\
  (In (RouterPush "/dashboard") (calls (trace r)) <->
   test email_re (email c) = true /\ (6 <= length (password c))%nat /\
   p (submit_call c) = Fulfilled) /\
  (In (submit_call c) (calls (trace r)) <->
   test email_re (email c) = true /\ (6 <= length (password c))%nat) /\
  (length (List.filter is_provider_call (calls (trace r))) <= 1)%nat /\
  (forall k, In k (calls (trace r)) -> is_navigation k = true ->
     k = RouterPush "/dashboard").
Proof.
  intros r.
  split; [apply handleSubmit_calls|].
  split.
  { subst r. rewrite handleSubmit_calls.
    destruct (test email_re (email c) && (6 <=? length (password c))%nat); [|done].
    simpl. rewrite submit_call_is_provider. by destruct (p (submit_call c)). }
  destruct (handleSubmit_cases c p s) as [[Hi Hc]|[(He & Hp & Hf & Hc)|(He & Hp & [e Hf] & Hc)]];
    fold r in Hc; rewrite Hc; clear Hc.
  - assert (~ (test email_re (email c) = true /\ (6 <= length (password c))%nat)) as Hn.
    { intros [He Hp]. destruct Hi as [E|[E|[E|E]]].
      - rewrite E in He. discriminate.
      - congruence.
      - rewrite E in Hp. simpl in Hp. lia.
      - lia. }
    split; [|split; [|split]].
    + split; [intros [?|[]]; discriminate | intros (? & ? & _); tauto].
    + split; [|tauto]. intros [E|[]].
      destruct (submit_call_cases c) as [(? & ? & Ec)|(? & ? & Ec)];
        rewrite Ec in E; discriminate.
    + simpl. lia.
    + intros k [<-|[]]. discriminate.
  - destruct (submit_call_cases c) as [(? & ? & Ec)|(? & ? & Ec)]; rewrite Ec in *;
      (split; [|split; [|split]]);
      [ split; [done | intros _; simpl; tauto]
      | split; [done | intros _; simpl; tauto]
      | simpl; lia
      | intros k [<-|[<-|[<-|[<-|[]]]]]; done
      | split; [done | intros _; simpl; tauto]
      | split; [done | intros _; simpl; tauto]
      | simpl; lia
      | intros k [<-|[<-|[<-|[<-|[]]]]]; done ].
  - destruct (submit_call_cases c) as [(? & ? & Ec)|(? & ? & Ec)]; rewrite Ec in *;
      (split; [|split; [|split]]);
      [ split; [intros [?|[?|[]]]; discriminate | intros (_ & _ & ?); congruence]
      | split; [done | intros _; simpl; tauto]
      | simpl; lia
      | intros k [<-|[<-|[]]]; done
      | split; [intros [?|[?|[]]]; discriminate | intros (_ & _ & ?); congruence]
      | split; [done | intros _; simpl; tauto]
      | simpl; lia
      | intros k [<-|[<-|[]]]; done ].
Qed.

Lemma strprop_text c :
  test email_re (email c) = true -> (6 <= length (password c))%nat ->
  strprop (formData c) "email" = Str (email c) /\
  strprop (formData c) "password" = Str (password c).
Proof.
  intros He Hp. split.
  - destruct (strprop_email c) as [[E _]|[_ ?]]; [|done].
    rewrite E in He. discriminate.
  - destruct (strprop_password c) as [[E _]|[_ ?]]; [|done].
    rewrite E in Hp. simpl in Hp. lia.
Qed.

(** X6: on a valid form the provider is called with the texts of the two
    fields as they are, through [signInWithEmailAndPassword] in sign-in
    mode and [createUserWithEmailAndPassword] in sign-up mode; the function
    of the other mode is not called. *)
Theorem submit_passes_credentials c p s :
  test email_re (email c) = true -> (6 <= length (password c))%nat ->
  let r := exec (handleSubmit c) p s in
  In (credentials_call (authMode c) (email c) (password c)) (calls (trace r)) /\
  (authMode c = signIn ->
   forall e pw, ~ In (CreateUserWithEmailAndPassword e pw) (calls (trace r))) /\
  (authMode c = signUp ->
   forall e pw, ~ In (SignInWithEmailAndPassword e pw) (calls (trace r))).
Proof.
  intros He Hp r.
  assert (submit_call c = credentials_call (authMode c) (email c) (password c)) as Ec.
  { unfold submit_call, credentials_call.
    destruct (strprop_text c He Hp) as [-> ->]. done. }
  assert (calls (trace r) = [PreventDefault; submit_call c] \/
          calls (trace r) = [PreventDefault; submit_call c; SetTimeout 1000;
                             RouterPush "/dashboard"]) as Hc.
  { destruct (handleSubmit_cases c p s) as [[Hi _]|[(_ & _ & _ & Hc)|(_ & _ & _ & Hc)]];
      [|by right|by left].
    destruct Hi as [E|[E|[E|E]]].
    - rewrite E in He. discriminate.
    - congruence.
    - rewrite E in Hp. simpl in Hp. lia.
    - lia. }
  rewrite Ec in Hc. unfold credentials_call in *.
  split; [destruct Hc as [-> | ->]; simpl; tauto|].
  split; intros Hm e pw; rewrite Hm in Hc;
    destruct Hc as [-> | ->]; simpl; intros H; decompose [or] H; done.
Qed.

Lemma submit_passes_credentials_witness :
  test email_re (email filled) = true /\
  In (SignInWithEmailAndPassword (Str (lit "test@example.com")) (Str (lit "password123")))
     (calls (trace (exec (handleSubmit filled) fulfilling filled))).
Proof.
  assert (test email_re (email filled) = true) as He by reflexivity.
  assert (6 <= length (password filled))%nat as Hp by (vm_compute; lia).
  split; [exact He|].
  exact (proj1 (submit_passes_credentials filled fulfilling filled He Hp)).
Defined.

(** *** The loading flag *)

(** X7: on a valid form the handler raises [isLoading] before it calls the
    provider: the second entry of the log is the provider call, made in a
    state where the flag is up, the submit button disabled and its label
    the pending label of the mode on screen; the flag stays up at the timer
    and the push that may follow.  When the handler ends the flag is down
    again, whether the provider fulfilled or rejected. *)
Theorem submit_loading_lifecycle c p s :
  test email_re (email c) = true -> (6 <= length (password c))%nat ->
  let r := exec (handleSubmit c) p s in
  (exists s1 rest,
     trace r = (PreventDefault, s) :: (submit_call c, s1) :: rest /\
     isLoading s1 = true /\
     submit_disabled (render s1) = true /\
     submit_label (render s1) =
       match authMode s with
       | signUp => lit "Creating account..."
       | signIn => lit "Signing in..."
       end /\
     Forall (fun x => isLoading x.2 = true /\
                      submit_disabled (render x.2) = true) rest) /\
  isLoading (final r) = false /\
  submit_disabled (render (final r)) = isGoogleLoading s /\
  Forall (fun x =>
            x.1 <> PreventDefault ->
            isLoading x.2 = true /\
            submit_disabled (render x.2) = true /\
            submit_label (render x.2) =
              match authMode s with
              | signUp => lit "Creating account..."
              | signIn => lit "Signing in..."
              end) (trace r).
Proof.
  intros He Hp r. subst r.
  destruct (p (submit_call c)) as [|e] eqn:Hf.
  - rewrite (handleSubmit_fulfilled c p s He Hp Hf).
    split.
    { eexists _, _. split; [reflexivity|]. split; [done|]. split; [done|].
      split; [cbn; by destruct (authMode s) | by repeat constructor]. }
    split; [done|]. split; [done|].
    repeat constructor; try done; by destruct (authMode s).
  - rewrite (handleSubmit_rejected c p s e He Hp Hf).
    split.
    { eexists _, _. split; [reflexivity|]. split; [done|]. split; [done|].
      split; [cbn; by destruct (authMode s) | by repeat constructor]. }
    split; [done|]. split; [done|].
    repeat constructor; try done; by destruct (authMode s).
Qed.

Lemma submit_loading_lifecycle_witness :
  test email_re (email filled) = true /\
  isLoading (final (exec (handleSubmit filled) (rejecting NotAnError) filled)) = false.
Proof.
  assert (test email_re (email filled) = true) as He by reflexivity.
  assert (6 <= length (password filled))%nat as Hp by (vm_compute; lia).
  split; [exact He|].
  exact (proj1 (proj2
    (submit_loading_lifecycle filled (rejecting NotAnError) filled He Hp))).
Defined.

(** *** Google sign-in *)

(** X8: when the popup sign-in is fulfilled, the handler sets the message
    [Login successful!] and the redirecting flag, waits 1000 ms in that
    state and pushes [/dashboard]; it ends with [isGoogleLoading] down.
    Unlike a submit it leaves the form data and the field errors as they
    were. *)
Theorem google_sign_in_success p s :
  p SignInWithPopup = Fulfilled ->
  let r := exec handleGoogleSignIn p s in
  returned r = Normal tt /\
  (exists s1 s2,
     trace r = [(SignInWithPopup, s1); (SetTimeout 1000, s2);
                (RouterPush "/dashboard", s2)] /\
     isGoogleLoading s1 = true /\
     google_label (render s1) = lit "Signing in with Google..." /\
     success_message (render s2) = Some (lit "Login successful!") /\
     redirect_buffer (render s2) = true) /\
  formData (final r) = formData s /\
  errors (final r) = errors s /\
  authError (final r) = [] /\
  isGoogleLoading (final r) = false.
Proof.
  intros Hf r. subst r. rewrite (handleGoogleSignIn_fulfilled p s Hf).
  split; [done|]. split; [|done].
  eexists _, _. split; [reflexivity|]. done.
Qed.

Lemma google_sign_in_success_witness :
  formData (final (exec handleGoogleSignIn fulfilling filled)) = formData filled.
Proof.
  exact (proj1 (proj2 (proj2 (google_sign_in_success fulfilling filled eq_refl)))).
Defined.

(** X9: the Google handler does not validate the form: whatever the form
    holds, its first call is the popup sign-in, and it is its only call to
    the provider.  It pushes [/dashboard] exactly when that call is
    fulfilled, and never touches the form data or the field errors. *)
Theorem google_navigates_iff p s :
  let r := exec handleGoogleSignIn p s in
  head (calls (trace r)) = Some SignInWithPopup /\
  List.filter is_provider_call (calls (trace r)) = [SignInWithPopup] /\
  (In (RouterPush "/dashboard") (calls (trace r)) <-> p SignInWithPopup = Fulfilled) /\
  Forall (fun x => formData x.2 = formData s /\ errors x.2 = errors s) (trace r) /\
  formData (final r) = formData s /\
  errors (final r) = errors s.
Proof.
  intros r. subst r. destruct (p SignInWithPopup) as [|e] eqn:Hf.
  - rewrite (handleGoogleSignIn_fulfilled p s Hf).
    split; [done|]. split; [done|]. split; [simpl; tauto|].
    split; [by repeat constructor|]. done.
  - rewrite (handleGoogleSignIn_rejected p s e Hf).
    split; [done|]. split; [done|].
    split; [split; [intros [?|[]]; discriminate | discriminate]|].
    split; [by repeat constructor|]. done.
Qed.

(** *** The banners *)

(** X10: after a submit or a Google sign-in the success message and the
    auth error are never both set, whatever they were before; and while a
    provider call, the timer or the push is pending no auth error is on
    screen. *)
Theorem banners_exclusive c p s :
  (let r := exec (handleSubmit c) p s in
   (successMessage (final r) = [] \/ authError (final r) = []) /\
   (isRedirecting (final r) = true -> authError (final r) = []) /\
   Forall (fun x => x.1 <> PreventDefault -> auth_error (render x.2) = None) (trace r)) /\
  (let g := exec handleGoogleSignIn p s in
   (successMessage (final g) = [] \/ authError (final g) = []) /\
   (isRedirecting (final g) = true -> authError (final g) = []) /\
   Forall (fun x => auth_error (render x.2) = None) (trace g)).
Proof.
  split.
  - destruct (valid_or_invalid c) as [[He Hp]|Hi].
    + destruct (p (submit_call c)) as [|e] eqn:Hf.
      * rewrite (handleSubmit_fulfilled c p s He Hp Hf).
        split; [by right|]. split; [done|]. by repeat constructor.
      * rewrite (handleSubmit_rejected c p s e He Hp Hf).
        split; [by left|]. split; [done|]. by repeat constructor.
    + rewrite (handleSubmit_invalid c p s (validateForm_false c Hi)).
      split; [by left|]. split; [done|]. by repeat constructor.
  - destruct (p SignInWithPopup) as [|e] eqn:Hf.
    + rewrite (handleGoogleSignIn_fulfilled p s Hf).
      split; [by right|]. split; [done|]. by repeat constructor.
    + rewrite (handleGoogleSignIn_rejected p s e Hf).
      split; [by left|]. split; [done|]. by repeat constructor.
Qed.

(** *** The mode toggle *)

(** X11: the toggle sets the other mode than the one of its render and
    touches nothing else: the typed texts, the errors and the banners stay,
    and no outside call is made. *)
Theorem toggle_flips_mode_only c p s :
  let r := exec (toggleAuthMode c) p s in
  returned r = Normal tt /\
  trace r = [] /\
  authMode (final r) <> authMode c /\
  (authMode (final r) = signUp <-> authMode c = signIn) /\
  final r = with_authMode (authMode (final r)) s.
Proof.
  unfold exec, toggleAuthMode. setters. cbn.
  split; [done|]. split; [done|].
  destruct (authMode c); repeat split; done.
Qed.

End LoginProps.

(** ** Series of events on the form *)

Module SessionProps.
Import Js Regex Effects EffectsFacts Login Session LoginSpec.

Implicit Types (c s : LoginState) (p : provider) (ev : ui_event).

(** The state an edit leaves. *)
Lemma handleChange_run c p s (name : string) (value : jsstring) :
  exec (handleChange c name value) p s =
  Run (Normal tt)
      (if truthy_at (errors c) name
       then with_errors (fun prev => <[name := Undefined]> prev)
              (with_formData (fun prev => <[name := value]> prev) s)
       else with_formData (fun prev => <[name := value]> prev) s)
      [].
Proof.
  unfold exec, handleChange. steps. by destruct (truthy_at (errors c) name).
Qed.

Lemma handleChange_frame c p s (name : string) (value : jsstring) :
  let s' := final (exec (handleChange c name value) p s) in
  formData s' = <[name := value]> (formData s) /\
  isLoading s' = isLoading s /\ isGoogleLoading s' = isGoogleLoading s /\
  authMode s' = authMode s.
Proof.
  rewrite handleChange_run. by destruct (truthy_at (errors c) name).
Qed.

Lemma handleSubmit_idle c p s :
  isLoading s = false ->
  isLoading (final (exec (handleSubmit c) p s)) = false /\
  isGoogleLoading (final (exec (handleSubmit c) p s)) = isGoogleLoading s.
Proof.
  intros Hl. destruct (valid_or_invalid c) as [[He Hp]|Hi].
  - destruct (p (submit_call c)) as [|e] eqn:Hf.
    + by rewrite (handleSubmit_fulfilled c p s He Hp Hf).
    + by rewrite (handleSubmit_rejected c p s e He Hp Hf).
  - by rewrite (handleSubmit_invalid c p s (validateForm_false c Hi)).
Qed.

Lemma handleGoogleSignIn_idle p s :
  isGoogleLoading (final (exec handleGoogleSignIn p s)) = false /\
  isLoading (final (exec handleGoogleSignIn p s)) = isLoading s.
Proof.
  destruct (p SignInWithPopup) as [|e] eqn:Hf.
  - by rewrite (handleGoogleSignIn_fulfilled p s Hf).
  - by rewrite (handleGoogleSignIn_rejected p s e Hf).
Qed.

Lemma handler_idle p s ev : idle s -> idle (final (exec (handler s ev) p s)).
Proof.
  intros [Hl Hg]. unfold idle. destruct ev as [name value| | |]; simpl.
  - destruct (handleChange_frame s p s name value) as (_ & -> & -> & _). done.
  - unfold render; cbn [submit_disabled]. rewrite Hl, Hg. simpl.
    destruct (handleSubmit_idle s p s Hl) as [-> ->]. done.
  - unfold render; cbn [google_disabled]. rewrite Hl, Hg. simpl.
    destruct (handleGoogleSignIn_idle p s) as [-> ->]. done.
  - done.
Qed.

(** A series with one provider throughout is a case of the general one. *)
Lemma session_replay p s (evs : list ui_event) :
  session p s evs = replay s (map (fun ev => (ev, p)) evs).
Proof.
  revert s. induction evs as [|ev evs IH]; intros s; simpl; [done|].
  by rewrite IH.
Qed.

(** X12: from a state in which no call is pending (both loading flags
    down), every series of edits and clicks, each handled to its end,
    ends in such a state again, whatever the provider answers to each of
    them, also when it answers the same call differently on a retry: no
    handler leaves the buttons disabled. *)
Theorem session_stays_idle s (evs : list (ui_event * provider)) :
  idle s ->
  idle (replay s evs).1 /\
  submit_disabled (render (replay s evs).1) = false /\
  google_disabled (render (replay s evs).1) = false.
Proof.
  intros H.
  assert (idle (replay s evs).1) as [Hl Hg].
  { revert s H. induction evs as [|[ev p] evs IH]; intros s H; simpl; [done|].
    specialize (IH _ (handler_idle p s ev H)).
    by destruct (replay (final (exec (handler s ev) p s)) evs). }
  split; [done|]. unfold render; cbn [submit_disabled google_disabled].
  by rewrite Hl, Hg.
Qed.

Lemma session_stays_idle_witness :
  idle initial /\
  submit_disabled
    (render (replay initial
               [(Change "email" (lit "test@example.com"), fulfilling);
                (Change "password" (lit "password123"), fulfilling);
                (ClickSubmit, rejecting invalid_credential);
                (ClickSubmit, fulfilling);
                (ClickGoogle, rejecting NotAnError)]).1) = false.
Proof.
  assert (idle initial) as H by (split; reflexivity).
  split; [exact H|].
  exact (proj1 (proj2 (session_stays_idle initial _ H))).
Defined.

Lemma session_cons p s ev (evs : list ui_event) :
  session p s (ev :: evs) =
  ((session p (final (exec (handler s ev) p s)) evs).1,
   calls (trace (exec (handler s ev) p s))
   ++ (session p (final (exec (handler s ev) p s)) evs).2).
Proof.
  simpl. by destruct (session p (final (exec (handler s ev) p s)) evs).
Qed.

(** The form after the two fields were filled in. *)
Lemma typed_form p s (e pw : jsstring) :
  let s1 := final (exec (handleChange s "email" e) p s) in
  let s2 := final (exec (handleChange s1 "password" pw) p s1) in
  email s2 = e /\ password s2 = pw /\ authMode s2 = authMode s /\
  isLoading s2 = isLoading s /\ isGoogleLoading s2 = isGoogleLoading s /\
  trace (exec (handleChange s "email" e) p s) = [] /\
  trace (exec (handleChange s1 "password" pw) p s1) = [].
Proof.
  intros s1 s2.
  destruct (handleChange_frame s p s "email" e) as (F1 & L1 & G1 & M1).
  destruct (handleChange_frame s1 p s1 "password" pw) as (F2 & L2 & G2 & M2).
  fold s1 in F1, L1, G1, M1, F2, L2, G2, M2. fold s2 in F2, L2, G2, M2.
  split; [|split; [|split; [|split; [|split; [|split]]]]].
  - unfold email. rewrite F2, lookup_insert_ne, F1, lookup_insert_eq; done.
  - unfold password. by rewrite F2, lookup_insert_eq.
  - by rewrite M2, M1.
  - by rewrite L2, L1.
  - by rewrite G2, G1.
  - by rewrite handleChange_run.
  - by rewrite handleChange_run.
Qed.

(** X13: typing an address that matches the pattern and a password of six
    code units or more and then clicking the submit button, with no call
    pending, calls the provider function of the current mode with exactly
    the typed texts.  If the call is fulfilled the timer and the push to
    [/dashboard] follow and the form ends empty; if it is rejected nothing
    follows and the typed texts stay in the form. *)
Theorem typed_credentials_reach_provider p s (e pw : jsstring) :
  idle s -> test email_re e = true -> (6 <= length pw)%nat ->
  let out := session p s [Change "email" e; Change "password" pw; ClickSubmit] in
  out.2 =
    PreventDefault :: credentials_call (authMode s) e pw ::
      match p (credentials_call (authMode s) e pw) with
      | Fulfilled => [SetTimeout 1000; RouterPush "/dashboard"]
      | Rejected _ => []
      end /\
  match p (credentials_call (authMode s) e pw) with
  | Fulfilled => email out.1 = [] /\ password out.1 = []
  | Rejected _ => email out.1 = e /\ password out.1 = pw
  end.
Proof.
  intros [Hl Hg] He Hp out. subst out.
  rewrite !session_cons. cbn [handler session fst snd].
  destruct (typed_form p s e pw) as (Ee & Epw & Em & El & Eg & T1 & T2).
  set (s1 := final (exec (handleChange s "email" e) p s)) in *.
  set (s2 := final (exec (handleChange s1 "password" pw) p s1)) in *.
  rewrite T1, T2.
  assert (submit_disabled (render s2) = false) as ->.
  { unfold render; cbn [submit_disabled]. by rewrite El, Eg, Hl, Hg. }
  assert (test email_re (email s2) = true) as He2 by by rewrite Ee.
  assert (6 <= length (password s2))%nat as Hp2 by by rewrite Epw.
  assert (submit_call s2 = credentials_call (authMode s) e pw) as Ec.
  { unfold submit_call, credentials_call.
    destruct (LoginProps.strprop_text s2 He2 Hp2) as [-> ->].
    by rewrite Em, Ee, Epw. }
  rewrite <- Ec.
  destruct (p (submit_call s2)) as [|x] eqn:Hf.
  - rewrite (handleSubmit_fulfilled s2 p s2 He2 Hp2 Hf). done.
  - rewrite (handleSubmit_rejected s2 p s2 x He2 Hp2 Hf). done.
Qed.

Lemma typed_credentials_reach_provider_witness :
  idle initial /\
  (session fulfilling initial
     [Change "email" (lit "test@example.com");
      Change "password" (lit "password123"); ClickSubmit]).2
  = [PreventDefault;
     SignInWithEmailAndPassword (Str (lit "test@example.com")) (Str (lit "password123"));
     SetTimeout 1000; RouterPush "/dashboard"].
Proof.
  assert (idle initial) as H by (split; reflexivity).
  assert (6 <= length (lit "password123"))%nat as Hp by (vm_compute; lia).
  split; [exact H|].
  exact (proj1 (typed_credentials_reach_provider fulfilling initial
                  (lit "test@example.com") (lit "password123") H eq_refl Hp)).
Defined.

(** X14: a click on submit with both fields empty, followed by an edit of
    the email field, leaves the email error off the page and the password
    error on it; the input shows the typed text, and the only outside call
    of the two events is [preventDefault]. *)
Theorem typing_after_failed_submit p s (v : jsstring) :
  idle s -> email s = [] -> password s = [] ->
  let out := session p s [ClickSubmit; Change "email" v] in
  out.2 = [PreventDefault] /\
  email_error (render out.1) = None /\
  password_error (render out.1) = Some password_required /\
  email_input (render out.1) = Str v.
Proof.
  intros [Hl Hg] Ee Ep out. subst out.
  rewrite !session_cons. cbn [handler session fst snd].
  assert (submit_disabled (render s) = false) as ->.
  { unfold render; cbn [submit_disabled]. by rewrite Hl, Hg. }
  assert (email s = [] \/ test email_re (email s) = false \/
          password s = [] \/ (length (password s) < 6)%nat) as Hi by by left.
  rewrite (handleSubmit_invalid s p s (validateForm_false s Hi)).
  cbn [final trace].
  set (s0 := with_errors _ _).
  assert (errors s0 !! "email" = Some (Str email_required)) as Hem.
  { subst s0. cbn [errors with_errors].
    by rewrite email_entry, bool_decide_eq_true_2. }
  assert (errors s0 !! "password" = Some (Str password_required)) as Hpw.
  { subst s0. cbn [errors with_errors].
    by rewrite password_entry, bool_decide_eq_true_2. }
  assert (truthy_at (errors s0) "email" = true) as Ht
    by (unfold truthy_at; by rewrite Hem).
  rewrite handleChange_run, Ht. cbn [final trace].
  split; [done|]. unfold render, prop, strprop.
  cbn [email_error password_error email_input errors formData with_errors with_formData].
  rewrite !lookup_insert_eq, lookup_insert_ne, Hpw by done. done.
Qed.

Lemma typing_after_failed_submit_witness :
  idle initial /\
  email_error (render (session fulfilling initial
                         [ClickSubmit; Change "email" (lit "t")]).1) = None.
Proof.
  assert (idle initial) as H by (split; reflexivity).
  split; [exact H|].
  exact (proj1 (proj2 (typing_after_failed_submit fulfilling initial (lit "t")
                         H eq_refl eq_refl))).
Defined.

(** X15: two clicks on the mode toggle bring back the very state they
    started from, and make no outside call. *)
Theorem toggle_twice_is_identity p s :
  session p s [ClickToggle; ClickToggle] = (s, []).
Proof.
  rewrite !session_cons. cbn [handler session fst snd].
  unfold exec, toggleAuthMode. setters. cbn.
  destruct s as [fd er l g rd sm ae m]. by destruct m.
Qed.

End SessionProps.

(** ** More on the dashboard page *)

Module DashboardProps.
Import Js Effects EffectsFacts Dashboard DashboardSpec.

Implicit Types (c s : DashboardState) (p : provider).

(** X16: [handleSignOut] replaces the location with [/login] exactly when
    the provider fulfils the sign-out, and then only after the 1000 ms
    timer.  In that case the signing-out flag stays up to the end, so the
    button stays disabled and the buffer and the success message stay on
    screen until the page is left. *)
Theorem sign_out_redirects_iff p s :
  let r := exec handleSignOut p s in
  (In (RouterReplace "/login") (calls (trace r)) <-> p SignOut = Fulfilled) /\
  head (calls (trace r)) = Some SignOut /\
  (p SignOut = Fulfilled ->
   calls (trace r) = [SignOut; SetTimeout 1000; RouterReplace "/login"] /\
   Forall (fun x => signout_buffer (render x.2) = true /\
                    button_disabled (render x.2) = true) (trace r) /\
   button_disabled (render (final r)) = true /\
   button_label (render (final r)) = lit "Signing out..." /\
   signout_message (render (final r)) = Some (lit "Signed out successfully!")).
Proof.
  intros r. subst r. destruct (p SignOut) as [|e] eqn:Hf.
  - rewrite (handleSignOut_fulfilled p s Hf).
    split; [simpl; tauto|]. split; [done|]. intros _.
    split; [done|]. split; [by repeat constructor|]. done.
  - rewrite (handleSignOut_rejected p s e Hf).
    split; [|split; [done|discriminate]].
    split; [intros [?|[]]; discriminate | discriminate].
Qed.

(** X17: at every call of [handleSignOut] the signing-out flag is up, so
    the auth-state listener of that render stays silent even when the
    provider reports that nobody is signed in: during the buffer only the
    handler redirects.  After a rejected sign-out the flag is down again,
    and the listener of the new render redirects when there is no user. *)
Theorem listener_silent_during_sign_out p s (user : option User) :
  let r := exec handleSignOut p s in
  Forall (fun x => trace (exec (authStateListener x.2 user) p x.2) = []) (trace r) /\
  (p SignOut = Fulfilled ->
   trace (exec (authStateListener (final r) user) p (final r)) = []) /\
  (forall e, p SignOut = Rejected e ->
   trace (exec (authStateListener (final r) None) p (final r))
   = [(RouterReplace "/login", final r)]).
Proof.
  intros r. subst r. destruct (p SignOut) as [|e] eqn:Hf.
  - rewrite (handleSignOut_fulfilled p s Hf).
    split; [|split; [|discriminate]].
    + repeat constructor; by destruct user.
    + intros _. by destruct user.
  - rewrite (handleSignOut_rejected p s e Hf).
    split; [|split; [discriminate|]].
    + repeat constructor. by destruct user.
    + intros e' _. reflexivity.
Qed.

End DashboardProps.

(** ** All handlers *)

Module HandlersProps.
Import Js Regex Effects EffectsFacts.

(** X18: no handler of either page lets an exception escape, whatever the
    provider answers to its calls: each returns normally, from every state
    and for every closure. *)
Theorem no_handler_throws (p : provider) :
  (forall c s, returned (exec (Login.handleSubmit c) p s) = Normal tt) /\
  (forall s, returned (exec Login.handleGoogleSignIn p s) = Normal tt) /\
  (forall c s name value,
     returned (exec (Login.handleChange c name value) p s) = Normal tt) /\
  (forall c s, returned (exec (Login.toggleAuthMode c) p s) = Normal tt) /\
  (forall s, returned (exec Dashboard.handleSignOut p s) = Normal tt) /\
  (forall c s user,
     returned (exec (Dashboard.authStateListener c user) p s) = Normal tt).
Proof.
  split; [|split; [|split; [|split; [|split]]]].
  - intros c s. destruct (LoginSpec.valid_or_invalid c) as [[He Hp]|Hi].
    + destruct (p (Login.submit_call c)) as [|e] eqn:Hf.
      * by rewrite (LoginSpec.handleSubmit_fulfilled c p s He Hp Hf).
      * by rewrite (LoginSpec.handleSubmit_rejected c p s e He Hp Hf).
    + by rewrite (LoginSpec.handleSubmit_invalid c p s
                    (LoginSpec.validateForm_false c Hi)).
  - intros s. destruct (p SignInWithPopup) as [|e] eqn:Hf.
    + by rewrite (LoginSpec.handleGoogleSignIn_fulfilled p s Hf).
    + by rewrite (LoginSpec.handleGoogleSignIn_rejected p s e Hf).
  - intros c s name value. by rewrite SessionProps.handleChange_run.
  - done.
  - intros s. destruct (p SignOut) as [|e] eqn:Hf.
    + by rewrite (DashboardSpec.handleSignOut_fulfilled p s Hf).
    + by rewrite (DashboardSpec.handleSignOut_rejected p s e Hf).
  - intros c s user. unfold exec, Dashboard.authStateListener.
    by destruct user, (Dashboard.isSigningOut c).
Qed.

End HandlersProps.
